(** * Tool layer of the chat agent: a shallow embedding of [src/tools.ts]

    The tools are asynchronous JavaScript closures that read an ambient
    agent context, call two collaborators (the agent's [schedule] entry
    point and the HTTP facade [bambaiApiClient.get]), write to the
    console and either return a string or throw.  They are embedded as
    computations in a small reader/state/exception monad [M]: the reader
    part is the environment of collaborators, the state part is the
    trace of observable effects, and a computation completes either by
    returning or by throwing. *)

From Stdlib Require Import String Ascii List Bool Arith Lia.
From stdpp Require Import base option list gmap strings.

Local Open Scope string_scope.

(** ** JavaScript values the tools touch *)

(** An [Error] object, as made by [new Error(msg)] or thrown by a
    collaborator. *)
Module Error.
Record t : Type := make { name : string; message : string }.

(** [Error.prototype.toString]. *)
Definition toString (e : t) : string :=
  if String.eqb (name e) "" then message e
  else if String.eqb (message e) "" then name e
  else name e +:+ ": " +:+ message e.
End Error.

(** [new Error(msg)] *)
Definition new_Error (msg : string) : Error.t := Error.make "Error" msg.

(** The double quote and the line feed, which string literals of this
    file do not spell out. *)
Definition dq : string := String (ascii_of_nat 34) EmptyString.
Definition nl : string := String (ascii_of_nat 10) EmptyString.

(** [hay.includes(needle)] *)
Fixpoint includes (hay needle : string) : bool :=
  String.prefix needle hay ||
  match hay with
  | EmptyString => false
  | String _ rest => includes rest needle
  end.

(** Truthiness of an optional string argument, as tested by
    [if (schoolIds)]: [undefined] and the empty string are falsy. *)
Definition truthy (v : option string) : bool :=
  match v with
  | None => false
  | Some s => negb (String.eqb s "")
  end.

(** What the JavaScript runtime and the imported libraries provide and
    this file does not define: dates (the schedule schema coerces
    [when.date] to a [Date]), numbers, the JSON bodies the facade
    answers with, their conversions to strings, and
    [encodeURIComponent], which throws a [URIError] on a malformed
    string. *)
Class Runtime : Type := {
  Date : Type;
  Number : Type;
  Json : Type;
  Date_toString : Date -> string;
  Number_toString : Number -> string;
  JSON_stringify : Json -> string;
  encodeURIComponent : string -> Error.t + string;
}.

(** How a computation completes. *)
Inductive Completion (A : Type) : Type :=
| Returned (a : A)
| Thrown (e : Error.t).
Arguments Returned {A} a.
Arguments Thrown {A} e.

Section Embedding.
Context `{RT : Runtime}.

(** The trigger value handed to [agent.schedule]: a date, a number of
    seconds or a cron expression. *)
Inductive TriggerValue : Type :=
| TDate (d : Date)
| TNumber (n : Number)
| TString (s : string).

(** [`${input}`]; [None] is [undefined]. *)
Definition template (input : option TriggerValue) : string :=
  match input with
  | None => "undefined"
  | Some (TDate d) => Date_toString d
  | Some (TNumber n) => Number_toString n
  | Some (TString s) => s
  end.

(** ** Observable effects *)

(** One argument of a console call. *)
Inductive Logged : Type :=
| LString (s : string)
| LJson (j : Json)
| LError (e : Error.t).

Inductive Level : Type := Log | ErrorLevel.

Record ConsoleLine : Type := { level : Level; parts : list Logged }.

(** One call [agent.schedule(input, action, payload)]. *)
Record ScheduleCall : Type :=
  { trigger : option TriggerValue; action : string; payload : string }.

(** One call [bambaiApiClient.get(url, { headers })]. *)
Record Request : Type :=
  { url : string; headers : list (string * string) }.

(** The trace of a run, oldest entry first; [unhandled] holds the
    rejections of promises that nothing awaited or caught. *)
Record World : Type :=
  { console : list ConsoleLine;
    scheduled : list ScheduleCall;
    requests : list Request;
    unhandled : list Error.t }.

Definition start : World :=
  {| console := []; scheduled := []; requests := []; unhandled := [] |}.

(** ** Collaborators *)

(** How the promise handed back by a call settles. *)
Inductive Settlement : Type :=
| Fulfilled
| Rejected (e : Error.t).

(** The agent context, by its scheduling entry point.  [schedule] is
    what the call itself does: [None] when it returns, handing back a
    promise, [Some e] when it throws [e] before returning.  [settles] is
    how the promise it handed back settles. *)
Record Agent : Type :=
  { schedule : ScheduleCall -> option Error.t;
    settles : ScheduleCall -> Settlement }.

(** [agentStore] is what [agentContext.getStore()] yields ([None] for
    [undefined]); [facade] is the outcome of a GET request. *)
Record Env : Type :=
  { agentStore : option Agent;
    facade : Request -> Error.t + Json }.

(** ** The monad *)

Definition M (A : Type) : Type := Env -> World -> Completion A * World.

Definition run {A} (m : M A) (env : Env) (w : World) : Completion A * World :=
  m env w.

#[global] Instance M_ret : MRet M := fun A a _ w => (Returned a, w).

#[global] Instance M_bind : MBind M := fun A B k m env w =>
  match m env w with
  | (Returned a, w') => k a env w'
  | (Thrown e, w') => (Thrown e, w')
  end.

(** [throw e] *)
Definition throw {A} (e : Error.t) : M A := fun _ w => (Thrown e, w).

(** [try { body } catch (error) { handler }] *)
Definition try_catch {A} (body : M A) (handler : Error.t -> M A) : M A :=
  fun env w =>
    match body env w with
    | (Returned a, w') => (Returned a, w')
    | (Thrown e, w') => handler e env w'
    end.

Definition console_log (ps : list Logged) : M unit := fun _ w =>
  (Returned tt,
   {| console := console w ++ [{| level := Log; parts := ps |}];
      scheduled := scheduled w;
      requests := requests w;
      unhandled := unhandled w |}).

Definition console_error (ps : list Logged) : M unit := fun _ w =>
  (Returned tt,
   {| console := console w ++ [{| level := ErrorLevel; parts := ps |}];
      scheduled := scheduled w;
      requests := requests w;
      unhandled := unhandled w |}).

(** [agentContext.getStore()] *)
Definition getStore : M (option Agent) := fun env w =>
  (Returned (agentStore env), w).

(** [agent.schedule(input, action, payload)]: the call is recorded, then
    throws or returns its promise as the agent decides. *)
Definition agent_schedule (agent : Agent) (input : option TriggerValue)
    (act pay : string) : M Settlement := fun _ w =>
  let call := {| trigger := input; action := act; payload := pay |} in
  let w' := {| console := console w;
               scheduled := scheduled w ++ [call];
               requests := requests w;
               unhandled := unhandled w |} in
  match schedule agent call with
  | None => (Returned (settles agent call), w')
  | Some e => (Thrown e, w')
  end.

(** A promise used as a statement, neither awaited nor given a handler:
    the statement completes at once, and a rejection of the promise
    reaches no [catch] and is left unhandled. *)
Definition unawaited (promise : Settlement) : M unit := fun _ w =>
  match promise with
  | Fulfilled => (Returned tt, w)
  | Rejected e =>
    (Returned tt,
     {| console := console w;
        scheduled := scheduled w;
        requests := requests w;
        unhandled := unhandled w ++ [e] |})
  end.

(** [await bambaiApiClient.get(url, { headers })], yielding [res.data]. *)
Definition bambaiApiClient_get (u : string) (hs : list (string * string))
    : M Json := fun env w =>
  let req := {| url := u; headers := hs |} in
  let w' := {| console := console w;
               scheduled := scheduled w;
               requests := requests w ++ [req];
               unhandled := unhandled w |} in
  match facade env req with
  | inr data => (Returned data, w')
  | inl e => (Thrown e, w')
  end.

(** A builtin that may throw, lifted into [M]. *)
Definition lift {A} (r : Error.t + A) : M A := fun _ w =>
  match r with
  | inr a => (Returned a, w)
  | inl e => (Thrown e, w)
  end.

(** ** Tool descriptors *)

(** The zod shapes used for [parameters]. *)
Inductive ZType : Type :=
| z_string
| z_optional (t : ZType).

Inductive Schema : Type :=
| z_object (fields : list (string * ZType))
| unstable_scheduleSchema.

(** What [tool({ description, parameters, execute })] builds; [execute]
    is [None] when the field is omitted. *)
Record Tool (P : Type) : Type :=
  { description : string;
    parameters : Schema;
    execute : option (P -> M string) }.
Arguments description {P} _.
Arguments parameters {P} _.
Arguments execute {P} _.

Definition AUTH_HEADER : list (string * string) := [("x-access-token", "")].

(** ** The tools *)

Definition getWeatherInformation : Tool string :=
  {| description := "show the weather in a given city to the user";
     parameters := z_object [("city", z_string)];
     execute := None |}.

Definition getLocalTime_execute : string -> M string :=
  fun location =>
  console_log [LString ("Getting local time for " +:+ location)];;
  mret "10am".

Definition getLocalTime : Tool string :=
  {| description := "get the local time for a specified location";
     parameters := z_object [("location", z_string)];
     execute := Some getLocalTime_execute |}.

(** The [when] object of the schedule tool as it is at run time: the
    discriminant and the fields the branches read, each [None] when the
    object does not carry it. *)
Record When : Type :=
  { type : string;
    date : option Date;
    delayInSeconds : option Number;
    cron : option string }.

Definition throwError (msg : string) : M (option TriggerValue) :=
  throw (new_Error msg).

Definition scheduleTask_execute (args : When * string) : M string :=
  let '(when, description) := args in
  agent ← getStore;
  match agent with
  | None => throw (new_Error "No agent found")
  | Some agent =>
    if String.eqb (type when) "no-schedule" then
      mret "Not a valid schedule input"
    else
      input ←
        (if String.eqb (type when) "scheduled" then
           mret (TDate <$> date when)
         else if String.eqb (type when) "delayed" then
           mret (TNumber <$> delayInSeconds when)
         else if String.eqb (type when) "cron" then
           mret (TString <$> cron when)
         else throwError "not a valid schedule input");
      early ←
        try_catch
          (promise ← agent_schedule agent input "executeTask" description;
           unawaited promise;;
           mret None)
          (fun error =>
             console_error [LString "error scheduling task"; LError error];;
             mret (Some ("Error scheduling task: " +:+ Error.toString error)));
      match early with
      | Some result => mret result
      | None =>
        mret ("Task scheduled for type " +:+ dq +:+ type when +:+ dq
              +:+ " : " +:+ template input)
      end
  end.

Definition scheduleTask : Tool (When * string) :=
  {| description := "A tool to schedule a task to be executed at a later time";
     parameters := unstable_scheduleSchema;
     execute := Some scheduleTask_execute |}.

Definition getUserPersonalData_execute : unit -> M string :=
  fun _ =>
  let headers := AUTH_HEADER in
  try_catch
    (data ← bambaiApiClient_get "me" headers;
     console_log [LString "res"; LJson data];;
     mret (JSON_stringify data))
    (fun error =>
       console_log [LString "err"; LError error];;
       mret "error").

Definition getUserPersonalData : Tool unit :=
  {| description := "This tool returns the personal information of the user";
     parameters := z_object [];
     execute := Some getUserPersonalData_execute |}.

Definition getSchools_execute : unit -> M string :=
  fun _ =>
  let headers := AUTH_HEADER in
  try_catch
    (data ← bambaiApiClient_get "schools?page=0&perPage=30" headers;
     console_log [LString "res"; LJson data];;
     mret (JSON_stringify data))
    (fun error =>
       console_log [LString "err"; LError error];;
       mret "error").

Definition getSchools : Tool unit :=
  {| description := "This tool returns the schools available for the user";
     parameters := z_object [];
     execute := Some getSchools_execute |}.

Definition getClasses_execute : unit -> M string :=
  fun _ =>
  let headers := AUTH_HEADER in
  try_catch
    (data ← bambaiApiClient_get "classes" headers;
     console_log [LString "res"; LJson data];;
     mret (JSON_stringify data))
    (fun error =>
       console_log [LString "err"; LError error];;
       mret "error").

Definition getClasses : Tool unit :=
  {| description := "This tool returns the classes available for the user";
     parameters := z_object [];
     execute := Some getClasses_execute |}.

Definition getSubjects_execute : unit -> M string :=
  fun _ =>
  let headers := AUTH_HEADER in
  try_catch
    (data ← bambaiApiClient_get "subjects" headers;
     console_log [LString "res"; LJson data];;
     mret (JSON_stringify data))
    (fun error =>
       console_log [LString "err"; LError error];;
       mret "error").

Definition getSubjects : Tool unit :=
  {| description := "This tool returns the subjects available for the user";
     parameters := z_object [];
     execute := Some getSubjects_execute |}.

Definition GET_STUDENTS_DESCRIPTION : string :=
  nl +:+ "This tool returns the students available for the user."
  +:+ nl +:+ "you can filter by schoolId and classIds."
  +:+ nl +:+ "classIds can be a list of ids separated by commas, such as "
  +:+ dq +:+ "1,2,3" +:+ dq +:+ "."
  +:+ nl +:+ "schoolIds can be a list of ids separated by commas, such as "
  +:+ dq +:+ "1,2,3" +:+ dq +:+ "."
  +:+ nl +:+ "ClassIds can be found using the getClasses tool."
  +:+ nl +:+ "SchoolIds can be found using the getSchools tool."
  +:+ nl.

(** The request path of [getStudents]: the value of [url] when the
    [try] block is entered. *)
Definition getStudents_url (schoolIds classIds : option string) : string :=
  let url := "active-students" in
  let url :=
    if truthy schoolIds then url +:+ "?schoolIds=" +:+ default "" schoolIds
    else url in
  let url :=
    if truthy classIds then
      if includes url "?" then url +:+ "&classIds=" +:+ default "" classIds
      else url +:+ "?classIds=" +:+ default "" classIds
    else url in
  url.

Definition getStudents_execute : option string * option string -> M string :=
  fun '(schoolIds, classIds) =>
  let headers := AUTH_HEADER in
  let url := getStudents_url schoolIds classIds in
  try_catch
    (data ← bambaiApiClient_get url headers;
     console_log [LString "res"; LJson data];;
     mret (JSON_stringify data))
    (fun error =>
       console_log [LString "err"; LError error];;
       mret "error").

Definition getStudents : Tool (option string * option string) :=
  {| description := GET_STUDENTS_DESCRIPTION;
     parameters := z_object [("schoolIds", z_optional z_string);
                             ("classIds", z_optional z_string)];
     execute := Some getStudents_execute |}.

Definition SEARCH_STUDENT_DESCRIPTION : string :=
  nl +:+ "This tool returns a list of students that match the search term."
  +:+ nl +:+ "you can search by name. it is compulsory to pass the name."
  +:+ nl +:+ "you can pass the schoolIds to filter the students by school."
  +:+ nl.

(** The request path of [searchStudent], from the encoded name. *)
Definition searchStudent_url (encoded : string) (schoolIds : option string)
    : string :=
  let url := "/students/typeahead?searchText=" +:+ encoded in
  let url :=
    if truthy schoolIds then url +:+ "?schoolIds=" +:+ default "" schoolIds
    else url in
  url.

Definition searchStudent_execute : string * option string -> M string :=
  fun '(name, schoolIds) =>
  let headers := AUTH_HEADER in
  encoded ← lift (encodeURIComponent name);
  let url := searchStudent_url encoded schoolIds in
  try_catch
    (data ← bambaiApiClient_get url headers;
     console_log [LString "res"; LJson data];;
     mret (JSON_stringify data))
    (fun error =>
       console_log [LString "err"; LError error];;
       mret "error").

Definition searchStudent : Tool (string * option string) :=
  {| description := SEARCH_STUDENT_DESCRIPTION;
     parameters := z_object [("name", z_string);
                             ("schoolIds", z_optional z_string)];
     execute := Some searchStudent_execute |}.

Definition GET_STUDENT_DESCRIPTION : string :=
  nl +:+ "This tool returns the full information of a student."
  +:+ nl +:+ "you need to pass the studentId to get the information."
  +:+ nl +:+ "you can get studentId (_id) using the getStudents tool."
  +:+ nl.

Definition getStudent_execute : string -> M string :=
  fun studentId =>
  let headers := AUTH_HEADER in
  let url := "student/" +:+ studentId in
  try_catch
    (data ← bambaiApiClient_get url headers;
     console_log [LString "res"; LJson data];;
     mret (JSON_stringify data))
    (fun error =>
       console_log [LString "err"; LError error];;
       mret "error").

Definition getStudent : Tool string :=
  {| description := GET_STUDENT_DESCRIPTION;
     parameters := z_object [("studentId", z_string)];
     execute := Some getStudent_execute |}.

(** ** The exported tables *)

(** A tool of any parameter type. *)
Inductive AnyTool : Type :=
| any {P : Type} (t : Tool P).

Definition has_execute (t : AnyTool) : bool :=
  match t with
  | any t => match execute t with Some _ => true | None => false end
  end.

(** [export const tools], in the order of its keys. *)
Definition tools : list (string * AnyTool) :=
  [ ("getUserPersonalData", any getUserPersonalData);
    ("getWeatherInformation", any getWeatherInformation);
    ("getLocalTime", any getLocalTime);
    ("scheduleTask", any scheduleTask);
    ("getClasses", any getClasses);
    ("getSubjects", any getSubjects);
    ("getSchools", any getSchools);
    ("getStudents", any getStudents);
    ("searchStudent", any searchStudent);
    ("getStudent", any getStudent) ].

(** [export const executions]: the implementations of the tools that
    wait for a confirmation; all of them take the arguments of
    [getWeatherInformation]. *)
Definition executions : list (string * (string -> M string)) :=
  [ ("getWeatherInformation", fun city =>
       console_log [LString ("Getting weather information for " +:+ city)];;
       mret ("The weather in " +:+ city +:+ " is sunny")) ].

(** [table[key]] on an object literal, [None] for [undefined]. *)
Fixpoint property {V : Type} (table : list (string * V)) (key : string)
    : option V :=
  match table with
  | [] => None
  | (k, v) :: rest => if String.eqb k key then Some v else property rest key
  end.

Definition keys {V : Type} (table : list (string * V)) : list string :=
  map fst table.

End Embedding.

Arguments description {RT P} _.
Arguments parameters {RT P} _.
Arguments execute {RT P} _.

(** ** The confirmation gate *)

Module Gate.

Section ConfirmationGate.
Context `{RT : Runtime}.

(** The validated arguments of a call, the registry reduced to each
    descriptor's inline executor, the executor table, and the result
    handed to the model when a call is denied. *)
Variable Args : Type.
Variable registry : list (string * option (Args -> M string)).
Variable table : list (string * (Args -> M string)).
Variable rejection : string.

Record PendingConfirmation : Type :=
  { toolName : string; validatedArguments : Args; createdAt : nat }.

Inductive Decision : Type := Approve | Deny.

Inductive Fault : Type :=
| MissingExecutorError
| AlreadyResolvedError
| ExecutorFailure (e : Error.t).

Inductive Result : Type :=
| Ok (result : string)
| Failed (f : Fault).

(** A pending id is either waiting for its decision or consumed. *)
Inductive Slot : Type :=
| Waiting (p : PendingConfirmation)
| Resolved.

Inductive Dispatched : Type :=
| Immediate (r : Completion string)
| Deferred (pendingId : nat).

Definition of_completion (c : Completion string) : Result :=
  match c with
  | Returned s => Ok s
  | Thrown e => Failed (ExecutorFailure e)
  end.

(** Modelled from the spec: the Confirmation Gate's [dispatch], which is
    not among the sources. A tool is Immediate iff its descriptor
    carries an inline executor; otherwise the call is Deferred under an
    id that no confirmation has had before. *)
Definition dispatch (name : string) (args : Args) (now : nat)
    (g : gmap nat Slot) (env : Env) (w : World)
    : Dispatched * gmap nat Slot * World :=
  match property registry name ≫= id with
  | Some inline =>
    let '(r, w') := inline args env w in (Immediate r, g, w')
  | None =>
    let pendingId := fresh (dom g) in
    let p := {| toolName := name; validatedArguments := args;
                createdAt := now |} in
    (Deferred pendingId, <[pendingId := Waiting p]> g, w)
  end.

(** Modelled from the spec: the Confirmation Gate's [resolve], which is
    not among the sources. Approve looks up the executor-table entry
    named [toolName] and invokes it with the stored arguments, failing
    with [MissingExecutorError] when there is none; Deny returns the
    rejection result without invoking anything; either way the
    confirmation is consumed, and resolving a consumed id fails with
    [AlreadyResolvedError]. The spec gives no result for an id that was
    never issued: [None]. *)
Definition resolve (pendingId : nat) (d : Decision)
    (g : gmap nat Slot) (env : Env) (w : World)
    : option (Result * gmap nat Slot * World) :=
  match g !! pendingId with
  | None => None
  | Some Resolved => Some (Failed AlreadyResolvedError, g, w)
  | Some (Waiting p) =>
    let g' := <[pendingId := Resolved]> g in
    match d with
    | Deny => Some (Ok rejection, g', w)
    | Approve =>
      match property table (toolName p) with
      | None => Some (Failed MissingExecutorError, g', w)
      | Some executor =>
        let '(c, w') := executor (validatedArguments p) env w in
        Some (of_completion c, g', w')
      end
    end
  end.

(** What the two boundaries can ask of the gate, and a run of such
    requests. *)
Inductive Op : Type :=
| OpDispatch (name : string) (args : Args) (now : nat)
| OpResolve (pendingId : nat) (d : Decision).

Definition step (env : Env) (s : gmap nat Slot * World) (o : Op)
    : gmap nat Slot * World :=
  let '(g, w) := s in
  match o with
  | OpDispatch name args now =>
    let '(_, g', w') := dispatch name args now g env w in (g', w')
  | OpResolve pendingId d =>
    match resolve pendingId d g env w with
    | Some (_, g', w') => (g', w')
    | None => (g, w)
    end
  end.

Definition steps (env : Env) (ops : list Op) (s : gmap nat Slot * World)
    : gmap nat Slot * World :=
  foldl (step env) s ops.

End ConfirmationGate.

End Gate.

Import Gate.

(** ** Names of the failures *)

Section Failures.
Context `{RT : Runtime}.

(** The source has no error classes: every failure of the schedule tool
    is a plain [Error], told apart by its message.  The error raised
    when [getStore()] yields nothing: *)
Definition NoActiveAgentError : Error.t := new_Error "No agent found".

(** and the one raised by [throwError] in the last branch of the
    trigger classification: *)
Definition InvalidScheduleError : Error.t :=
  new_Error "not a valid schedule input".

(** The rejections a dropped promise leaves unhandled. *)
Definition rejections (promise : Settlement) : list Error.t :=
  match promise with
  | Fulfilled => []
  | Rejected e => [e]
  end.

(** The trigger tags for which a scheduling call is made. *)
Definition recognised (tag : string) : bool :=
  String.eqb tag "scheduled" || String.eqb tag "delayed"
  || String.eqb tag "cron".

(** The trigger value the classification picks for a recognised tag. *)
Definition classified (when : When) : option TriggerValue :=
  if String.eqb (type when) "scheduled" then TDate <$> date when
  else if String.eqb (type when) "delayed" then TNumber <$> delayInSeconds when
  else TString <$> cron when.

(** The tools that only fetch a domain record through the facade. *)
Definition domain_tools : list AnyTool :=
  [ any getUserPersonalData; any getSchools; any getClasses;
    any getSubjects; any getStudents; any searchStudent; any getStudent ].

(** An executor answers from the facade, on given arguments, when every
    run makes one GET request and returns by its outcome: the string
    "error" when the request fails, the serialised body when it is
    answered. *)
Definition answers_from_facade {P : Type} (f : P -> M string) (args : P)
    : Prop :=
  forall (env : Env) (w : World),
    exists req,
      requests (run (f args) env w).2 = (requests w ++ [req])%list
      /\ (run (f args) env w).1
         = match facade env req with
           | inl _ => Returned "error"
           | inr data => Returned (JSON_stringify data)
           end.

(** A tool degrades to "error" when it has an inline executor that
    answers from the facade on all the arguments with which it gets as
    far as its request. *)
Definition degrades_to_error {P : Type} (ready : P -> Prop) (t : Tool P)
    : Prop :=
  exists f, execute t = Some f
            /\ forall args, ready args -> answers_from_facade f args.

(** The arguments of [searchStudent] whose name can be encoded. *)
Definition encodable (args : string * option string) : Prop :=
  exists encoded, encodeURIComponent args.1 = inr encoded.

End Failures.

(** ** A concrete runtime, for examples *)

Definition unreserved (c : ascii) : bool :=
  let n := nat_of_ascii c in
  ((65 <=? n)%nat && (n <=? 90)%nat) || ((97 <=? n)%nat && (n <=? 122)%nat)
  || ((48 <=? n)%nat && (n <=? 57)%nat)
  || existsb (Nat.eqb n) [45; 95; 46; 33; 126; 42; 39; 40; 41].

Definition hex_digit (n : nat) : ascii :=
  ascii_of_nat (if (n <? 10)%nat then 48 + n else 55 + n).

(** Percent-encoding of a string given by its UTF-8 bytes. *)
Fixpoint percent_encode (s : string) : string :=
  match s with
  | EmptyString => EmptyString
  | String c rest =>
    if unreserved c then String c (percent_encode rest)
    else
      let n := nat_of_ascii c in
      String "%" (String (hex_digit (n / 16))
                    (String (hex_digit (n mod 16)) (percent_encode rest)))
  end.

(** Dates and numbers stand for their printed form, a JSON body for its
    text, and every string is well formed. *)
Definition example_runtime : Runtime :=
  {| Date := string;
     Number := string;
     Json := string;
     Date_toString := fun d => d;
     Number_toString := fun n => n;
     JSON_stringify := fun j => j;
     encodeURIComponent := fun s => inr (percent_encode s) |}.

(** An agent whose scheduling call always returns, one whose call always
    throws, and a facade that is down or answers with an empty list. *)
Definition obliging_agent : @Agent example_runtime :=
  {| schedule := fun _ => None; settles := fun _ => Fulfilled |}.

Definition failing_agent : @Agent example_runtime :=
  {| schedule := fun _ => Some (new_Error "store is full");
     settles := fun _ => Fulfilled |}.

(** An agent whose scheduling call hands back a promise that rejects. *)
Definition rejecting_agent : @Agent example_runtime :=
  {| schedule := fun _ => None;
     settles := fun _ => Rejected (new_Error "store is full") |}.

Definition facade_down : Request -> Error.t + string :=
  fun _ => inl (Error.make "AxiosError" "Network Error").

Definition facade_up : Request -> Error.t + string :=
  fun _ => inr "[]".

Definition env_of (a : option (@Agent example_runtime))
    (f : Request -> Error.t + string) : @Env example_runtime :=
  @Build_Env example_runtime a f.

Definition when_of (tag : string) (d : option string)
    : @When example_runtime :=
  @Build_When example_runtime tag d None None.

(** The registry as the gate sees it for calls that carry one string:
    the weather tool has no inline executor, the local-time tool has
    one. *)
Definition string_registry
    : list (string * option (string -> @M example_runtime string)) :=
  [ ("getWeatherInformation", None);
    ("getLocalTime", Some getLocalTime_execute) ].

(** The gate after one weather call has been deferred. *)
Definition one_pending : gmap nat (Slot string) :=
  (dispatch string string_registry "getWeatherInformation" "Freetown" 0
     ∅ (env_of None facade_down) start).1.2.

(** ** What a run may and may not do *)

Section Effects.
Context `{RT : Runtime}.

(** An executor that never reaches [agent.schedule]. *)
Definition never_schedules {P : Type} (f : P -> M string) : Prop :=
  forall (args : P) (env : Env) (w : World),
    scheduled (run (f args) env w).2 = scheduled w.

(** An executor that never calls the HTTP facade. *)
Definition never_fetches {P : Type} (f : P -> M string) : Prop :=
  forall (args : P) (env : Env) (w : World),
    requests (run (f args) env w).2 = requests w.

(** An executor that returns a string whatever happens. *)
Definition always_returns {P : Type} (f : P -> M string) : Prop :=
  forall (args : P) (env : Env) (w : World),
    exists result, (run (f args) env w).1 = Returned result.

(** An executor whose runs add at most one GET request, always with the
    one header of [AUTH_HEADER], and add none only by throwing. *)
Definition fetches_with_token {P : Type} (f : P -> M string) : Prop :=
  forall (args : P) (env : Env) (w : World),
    exists rs,
      requests (run (f args) env w).2 = (requests w ++ rs)%list
      /\ (length rs <= 1)%nat
      /\ Forall (fun r => headers r = [("x-access-token", "")]) rs
      /\ (rs = [] -> exists e, (run (f args) env w).1 = Thrown e).

(** An executor that, in every run that issues a GET request, writes
    one line to the console with [console.log]: the body it received, or
    the error the request failed with. *)
Definition logs_outcome {P : Type} (f : P -> M string) : Prop :=
  forall (args : P) (env : Env) (w : World) (req : Request),
    requests (run (f args) env w).2 = (requests w ++ [req])%list ->
    console (run (f args) env w).2
    = (console w ++
       [{| level := Log;
           parts := match facade env req with
                    | inl e => [LString "err"; LError e]
                    | inr data => [LString "res"; LJson data]
                    end |}])%list.

(** A query string in the usual form: the first parameter after a
    question mark, each later one after an ampersand. *)
Fixpoint more_params (ps : list (string * string)) : string :=
  match ps with
  | [] => ""
  | (k, v) :: rest => "&" +:+ k +:+ "=" +:+ v +:+ more_params rest
  end.

Definition query_string (ps : list (string * string)) : string :=
  match ps with
  | [] => ""
  | (k, v) :: rest => "?" +:+ k +:+ "=" +:+ v +:+ more_params rest
  end.

(** The parameter an optional filter contributes: none when it is
    [undefined] or empty. *)
Definition given (key : string) (value : option string)
    : list (string * string) :=
  if truthy value then [(key, default "" value)] else [].

End Effects.

(** A runtime whose [encodeURIComponent] throws on a lone surrogate,
    here the bytes 0xED 0xA0..0xBF that stand for one. *)
Fixpoint lone_surrogate (s : string) : bool :=
  match s with
  | EmptyString => false
  | String c rest =>
    match rest with
    | String c' _ =>
      (Nat.eqb (nat_of_ascii c) 237 && (160 <=? nat_of_ascii c')%nat)
      || lone_surrogate rest
    | EmptyString => false
    end
  end.

Definition strict_runtime : Runtime :=
  {| Date := string;
     Number := string;
     Json := string;
     Date_toString := fun d => d;
     Number_toString := fun n => n;
     JSON_stringify := fun j => j;
     encodeURIComponent := fun s =>
       if lone_surrogate s then inl (Error.make "URIError" "URI malformed")
       else inr (percent_encode s) |}.

(** The name "A" followed by the three bytes of a lone surrogate. *)
Definition malformed_name : string :=
  String "A" (String (ascii_of_nat 237) (String (ascii_of_nat 160)
    (String (ascii_of_nat 128) EmptyString))).

Definition delayed_when (n : string) : @When example_runtime :=
  @Build_When example_runtime "delayed" None (Some n) None.

Definition cron_when (c : string) : @When example_runtime :=
  @Build_When example_runtime "cron" None None (Some c).

(** * Properties *)

(** ** Strings *)

Lemma prefix_refl (s : string) : String.prefix s s = true.
Proof.
  induction s as [|c s IH]; simpl; [reflexivity|].
  destruct (ascii_dec c c) as [_|Hne]; [exact IH | now destruct Hne].
Qed.

Lemma includes_suffix (p s : string) : includes (p +:+ s) s = true.
Proof.
  induction p as [|c p IH]; simpl.
  - destruct s as [|a s]; [reflexivity|].
    change (String.prefix (String a s) (String a s)
            || includes s (String a s) = true).
    now rewrite prefix_refl.
  - rewrite IH. apply orb_true_r.
Qed.

Lemma includes_append (p t s : string) :
  includes t s = true -> includes (p +:+ t) s = true.
Proof.
  intros H. induction p as [|c p IH]; simpl; [exact H|].
  rewrite IH. apply orb_true_r.
Qed.

Lemma eqb_neq_false (a b : string) : a <> b -> String.eqb a b = false.
Proof. intros H. now apply String.eqb_neq. Qed.

(** ** The schedule tool *)

Section ScheduleTool.
Context `{RT : Runtime}.

Ltac run_schedule :=
  unfold run, scheduleTask_execute, throwError, throw, try_catch,
         agent_schedule, unawaited, console_error, getStore,
         mbind, M_bind, mret, M_ret;
  simpl.

(** Without an agent context nothing but the guard runs. *)
Lemma schedule_without_agent (env : Env) (w : World) (args : When * string) :
  agentStore env = None ->
  run (scheduleTask_execute args) env w = (Thrown NoActiveAgentError, w).
Proof.
  intros Hnone. destruct args as [when description].
  run_schedule. now rewrite Hnone.
Qed.

(** With an agent context, a ["no-schedule"] trigger leaves on the
    informational string before anything else happens. *)
Lemma schedule_no_schedule (env : Env) (w : World) (agent : Agent)
    (when : When) (description : string) :
  agentStore env = Some agent ->
  type when = "no-schedule" ->
  run (scheduleTask_execute (when, description)) env w
  = (Returned "Not a valid schedule input", w).
Proof.
  intros Hagent Htype. run_schedule. now rewrite Hagent, Htype.
Qed.

(** With an agent context and a recognised tag, the tool makes exactly
    one scheduling call and answers according to its outcome. *)
Lemma schedule_recognised (env : Env) (w : World) (agent : Agent)
    (when : When) (description : string) :
  agentStore env = Some agent ->
  recognised (type when) = true ->
  let call := {| trigger := classified when; action := "executeTask";
                 payload := description |} in
  run (scheduleTask_execute (when, description)) env w
  = match schedule agent call with
    | None =>
      (Returned ("Task scheduled for type " +:+ dq +:+ type when +:+ dq
                 +:+ " : " +:+ template (classified when)),
       {| console := console w;
          scheduled := scheduled w ++ [call];
          requests := requests w;
          unhandled := unhandled w ++ rejections (settles agent call) |})
    | Some e =>
      (Returned ("Error scheduling task: " +:+ Error.toString e),
       {| console := console w ++
            [{| level := ErrorLevel;
                parts := [LString "error scheduling task"; LError e] |}];
          scheduled := scheduled w ++ [call];
          requests := requests w;
          unhandled := unhandled w |})
    end.
Proof.
  intros Hagent Htag call. subst call. unfold recognised, classified in *.
  run_schedule. rewrite Hagent.
  destruct (String.eqb (type when) "no-schedule") eqn:Hno.
  { apply String.eqb_eq in Hno. rewrite Hno in Htag. discriminate Htag. }
  destruct (String.eqb (type when) "scheduled") eqn:Hs; simpl.
  { destruct (schedule agent _); [reflexivity|].
    destruct (settles agent _); simpl; rewrite ?app_nil_r; reflexivity. }
  destruct (String.eqb (type when) "delayed") eqn:Hd; simpl.
  { destruct (schedule agent _); [reflexivity|].
    destruct (settles agent _); simpl; rewrite ?app_nil_r; reflexivity. }
  destruct (String.eqb (type when) "cron") eqn:Hc; simpl.
  { destruct (schedule agent _); [reflexivity|].
    destruct (settles agent _); simpl; rewrite ?app_nil_r; reflexivity. }
  simpl in Htag. discriminate Htag.
Qed.

(** With an agent context, a tag outside the four known ones ends in
    [throwError] before any scheduling call. *)
Lemma schedule_unrecognised (env : Env) (w : World) (agent : Agent)
    (when : When) (description : string) :
  agentStore env = Some agent ->
  type when <> "no-schedule" ->
  recognised (type when) = false ->
  run (scheduleTask_execute (when, description)) env w
  = (Thrown InvalidScheduleError, w).
Proof.
  intros Hagent Hno Htag. unfold recognised in Htag.
  apply orb_false_elim in Htag as [Htag Hc].
  apply orb_false_elim in Htag as [Hs Hd].
  run_schedule. rewrite Hagent, (eqb_neq_false _ _ Hno), Hs, Hd, Hc.
  reflexivity.
Qed.

(** C2, as amended: a ["no-schedule"] trigger never reaches the agent's
    scheduling entry point, and when an agent context is present the
    tool returns exactly "Not a valid schedule input", leaving the trace
    untouched. *)
Theorem no_schedule_returns_notice (env : Env) (w : World)
    (when : When) (description : string) :
  type when = "no-schedule" ->
  scheduled (run (scheduleTask_execute (when, description)) env w).2
  = scheduled w
  /\ (is_Some (agentStore env) ->
      run (scheduleTask_execute (when, description)) env w
      = (Returned "Not a valid schedule input", w)).
Proof.
  intros Htype. destruct (agentStore env) as [agent|] eqn:Hagent.
  - rewrite (schedule_no_schedule env w agent when description Hagent Htype).
    split; [reflexivity | intros _; reflexivity].
  - rewrite (schedule_without_agent env w (when, description) Hagent).
    split; [reflexivity | intros [a Ha]; discriminate Ha].
Qed.

(** C3, as amended: for a trigger of type ["scheduled"] carrying the
    date [d], with an agent context, the tool calls the scheduling
    entry point once, with [d], the action name "executeTask" and the
    description; when that call returns, the result is the text
    [Task scheduled for type "scheduled" : ] followed by the date as a
    string, so it ends with the date and names the trigger kind, not the
    action. *)
Theorem scheduled_date_is_passed_and_echoed (env : Env) (w : World)
    (agent : Agent) (when : When) (d : Date) (description : string) :
  agentStore env = Some agent ->
  type when = "scheduled" ->
  date when = Some d ->
  let call := {| trigger := Some (TDate d); action := "executeTask";
                 payload := description |} in
  let out := run (scheduleTask_execute (when, description)) env w in
  let result := "Task scheduled for type " +:+ dq +:+ "scheduled" +:+ dq
                +:+ " : " +:+ Date_toString d in
  scheduled out.2 = (scheduled w ++ [call])%list
  /\ (schedule agent call = None ->
      out.1 = Returned result /\ includes result (Date_toString d) = true).
Proof.
  intros Hagent Htype Hdate call out result. subst out.
  assert (Hinc : includes result (Date_toString d) = true).
  { subst result. do 4 apply includes_append. apply includes_suffix. }
  assert (Htag : recognised (type when) = true) by now rewrite Htype.
  rewrite (schedule_recognised env w agent when description Hagent Htag).
  unfold classified. rewrite Htype, Hdate. simpl. fold call.
  split.
  - destruct (schedule agent call); reflexivity.
  - intros Hok. rewrite Hok. split; [reflexivity | exact Hinc].
Qed.

(** X13: with an agent context and a recognised tag other than
    ["no-schedule"], the tool always returns and never throws; it makes
    one scheduling call, for the action "executeTask" and the
    description, and when that call itself throws [e], before handing
    back a promise, the result is "Error scheduling task: " followed by
    the text of [e]. *)
Theorem scheduling_failure_is_reported (env : Env) (w : World)
    (agent : Agent) (when : When) (description : string) :
  agentStore env = Some agent ->
  recognised (type when) = true ->
  let out := run (scheduleTask_execute (when, description)) env w in
  (exists result, out.1 = Returned result)
  /\ exists call,
       scheduled out.2 = (scheduled w ++ [call])%list
       /\ action call = "executeTask" /\ payload call = description
       /\ forall e, schedule agent call = Some e ->
          out.1 = Returned ("Error scheduling task: " +:+ Error.toString e)
          /\ includes ("Error scheduling task: " +:+ Error.toString e)
                      (Error.toString e) = true.
Proof.
  intros Hagent Htag out. subst out.
  rewrite (schedule_recognised env w agent when description Hagent Htag).
  set (call := {| trigger := classified when; action := "executeTask";
                  payload := description |}).
  split.
  - destruct (schedule agent call); eexists; reflexivity.
  - exists call. split; [destruct (schedule agent call); reflexivity|].
    split; [reflexivity|]. split; [reflexivity|].
    intros e He. rewrite He. split; [reflexivity | apply includes_suffix].
Qed.

(** C4, where the code departs from it: the scheduling call is not
    awaited, so when it hands back a promise that rejects with [e] the
    [catch] never sees [e].  The tool then reports success, writes
    nothing to the console, and leaves the rejection unhandled, instead
    of returning a string that describes the error. *)
Theorem scheduling_rejection_goes_unreported (env : Env) (w : World)
    (agent : Agent) (when : When) (description : string) (e : Error.t) :
  agentStore env = Some agent ->
  recognised (type when) = true ->
  let call := {| trigger := classified when; action := "executeTask";
                 payload := description |} in
  schedule agent call = None ->
  settles agent call = Rejected e ->
  let out := run (scheduleTask_execute (when, description)) env w in
  out.1 = Returned ("Task scheduled for type " +:+ dq +:+ type when +:+ dq
                    +:+ " : " +:+ template (classified when))
  /\ out.1 <> Returned ("Error scheduling task: " +:+ Error.toString e)
  /\ console out.2 = console w
  /\ unhandled out.2 = (unhandled w ++ [e])%list.
Proof.
  intros Hagent Htag call Hcall Hpromise out. subst out.
  rewrite (schedule_recognised env w agent when description Hagent Htag).
  fold call. rewrite Hcall, Hpromise. simpl.
  split; [reflexivity|]. split; [discriminate|]. split; reflexivity.
Qed.

(** C5: when no agent context is available the tool throws the error
    "No agent found" and the trace is unchanged, so nothing was
    scheduled. *)
Theorem no_agent_raises (env : Env) (w : World) (args : When * string) :
  agentStore env = None ->
  run (scheduleTask_execute args) env w = (Thrown NoActiveAgentError, w).
Proof. apply schedule_without_agent. Qed.

(** C6, as amended: for a tag that is none of ["no-schedule"],
    ["scheduled"], ["delayed"] and ["cron"], the tool throws and leaves
    the trace unchanged, so it neither returns a result nor calls the
    scheduling entry point; the error is "not a valid schedule input"
    when an agent context is present, and "No agent found" when there is
    none. *)
Theorem unknown_tag_raises (env : Env) (w : World)
    (when : When) (description : string) :
  type when <> "no-schedule" ->
  type when <> "scheduled" ->
  type when <> "delayed" ->
  type when <> "cron" ->
  run (scheduleTask_execute (when, description)) env w
  = (Thrown (match agentStore env with
             | Some _ => InvalidScheduleError
             | None => NoActiveAgentError
             end), w).
Proof.
  intros Hno Hs Hd Hc. destruct (agentStore env) as [agent|] eqn:Hagent.
  - apply (schedule_unrecognised env w agent); [assumption..|].
    unfold recognised.
    now rewrite (eqb_neq_false _ _ Hs), (eqb_neq_false _ _ Hd),
                (eqb_neq_false _ _ Hc).
  - now apply schedule_without_agent.
Qed.

(** C9: the agent check comes first.  Without an agent context the tool
    throws whatever the trigger is, a ["no-schedule"] trigger included,
    and a run that returns "Not a valid schedule input" had an agent
    context. *)
Theorem agent_check_precedes_classification (env : Env) (w : World)
    (when : When) (description : string) :
  let out := run (scheduleTask_execute (when, description)) env w in
  (agentStore env = None -> out.1 = Thrown NoActiveAgentError)
  /\ (agentStore env = None -> type when = "no-schedule" ->
      out.1 <> Returned "Not a valid schedule input")
  /\ (out.1 = Returned "Not a valid schedule input" ->
      is_Some (agentStore env)).
Proof.
  intros out. subst out.
  destruct (agentStore env) as [agent|] eqn:Hagent.
  - split; [discriminate|]. split; [discriminate|]. intros _. now exists agent.
  - rewrite (schedule_without_agent env w (when, description) Hagent). simpl.
    split; [reflexivity|]. split; [discriminate | discriminate].
Qed.

End ScheduleTool.

(** ** The domain-record tools *)

Section DomainTools.
Context `{RT : Runtime}.

(** The block every domain tool ends with: one GET request, answered by
    the serialised body or, when it fails, by "error". *)
Lemma fetch_run (u : string) (hs : list (string * string))
    (env : Env) (w : World) :
  run (try_catch
         (data ← bambaiApiClient_get u hs;
          console_log [LString "res"; LJson data];;
          mret (JSON_stringify data))
         (fun error =>
            console_log [LString "err"; LError error];;
            mret "error")) env w
  = let req := {| url := u; headers := hs |} in
    match facade env req with
    | inr data =>
      (Returned (JSON_stringify data),
       {| console := console w ++
            [{| level := Log; parts := [LString "res"; LJson data] |}];
          scheduled := scheduled w;
          requests := requests w ++ [req];
          unhandled := unhandled w |})
    | inl e =>
      (Returned "error",
       {| console := console w ++
            [{| level := Log; parts := [LString "err"; LError e] |}];
          scheduled := scheduled w;
          requests := requests w ++ [req];
          unhandled := unhandled w |})
    end.
Proof.
  unfold run, try_catch, bambaiApiClient_get, console_log,
         mbind, M_bind, mret, M_ret.
  simpl. destruct (facade env _); reflexivity.
Qed.

Lemma fetch_answers (u : string) (hs : list (string * string))
    (env : Env) (w : World) :
  let out :=
    run (try_catch
           (data ← bambaiApiClient_get u hs;
            console_log [LString "res"; LJson data];;
            mret (JSON_stringify data))
           (fun error =>
              console_log [LString "err"; LError error];;
              mret "error")) env w in
  exists req,
    requests out.2 = (requests w ++ [req])%list
    /\ out.1 = match facade env req with
               | inl _ => Returned "error"
               | inr data => Returned (JSON_stringify data)
               end.
Proof.
  intros out. subst out. rewrite fetch_run. cbv zeta.
  exists {| url := u; headers := hs |}.
  destruct (facade env _); split; reflexivity.
Qed.

(** [searchStudent] encodes the name before its request; when the
    encoding throws, no request is made and the error leaves the tool. *)
Lemma searchStudent_run (name : string) (schoolIds : option string)
    (env : Env) (w : World) :
  run (searchStudent_execute (name, schoolIds)) env w
  = match encodeURIComponent name with
    | inl e => (Thrown e, w)
    | inr encoded =>
      run (try_catch
             (data ← bambaiApiClient_get
                       (searchStudent_url encoded schoolIds) AUTH_HEADER;
              console_log [LString "res"; LJson data];;
              mret (JSON_stringify data))
             (fun error =>
                console_log [LString "err"; LError error];;
                mret "error")) env w
    end.
Proof.
  unfold searchStudent_execute, run, lift, mbind, M_bind.
  destruct (encodeURIComponent name); reflexivity.
Qed.

Ltac plain_fetch :=
  eexists; split; [reflexivity|];
  intros args _ env w; apply (fetch_answers _ _ env w).

(** C7: every domain-record tool has an inline executor that makes one
    GET request and returns, without throwing, exactly "error" when the
    request fails and the serialised JSON body when it succeeds;
    [searchStudent] does so whenever its name can be encoded, and
    otherwise makes no request at all. *)
Theorem domain_tools_degrade_to_error :
  degrades_to_error (fun _ => True) getUserPersonalData
  /\ degrades_to_error (fun _ => True) getSchools
  /\ degrades_to_error (fun _ => True) getClasses
  /\ degrades_to_error (fun _ => True) getSubjects
  /\ degrades_to_error (fun _ => True) getStudents
  /\ degrades_to_error (fun _ => True) getStudent
  /\ degrades_to_error encodable searchStudent
  /\ forall args env w,
       ~ encodable args ->
       requests (run (searchStudent_execute args) env w).2 = requests w.
Proof.
  do 4 (split; [plain_fetch|]).
  split.
  { eexists. split; [reflexivity|].
    intros [schoolIds classIds] _ env w. apply (fetch_answers _ _ env w). }
  split.
  { eexists. split; [reflexivity|].
    intros studentId _ env w. apply (fetch_answers _ _ env w). }
  split.
  { eexists. split; [reflexivity|].
    intros [name schoolIds] [encoded Henc] env w. simpl in Henc.
    rewrite searchStudent_run, Henc. apply (fetch_answers _ _ env w). }
  intros [name schoolIds] env w Hnot. rewrite searchStudent_run.
  destruct (encodeURIComponent name) as [e|encoded] eqn:Henc;
    [reflexivity|].
  destruct Hnot. now exists encoded.
Qed.

(** The request the domain tools make is never skipped: each makes
    exactly one, [searchStudent] once its name is encoded. *)
Lemma domain_tools_request_once (env : Env) (w : World) :
  (exists req, requests (run (getUserPersonalData_execute tt) env w).2
               = (requests w ++ [req])%list)
  /\ (exists req, requests (run (getSchools_execute tt) env w).2
                  = (requests w ++ [req])%list)
  /\ (exists req, requests (run (getClasses_execute tt) env w).2
                  = (requests w ++ [req])%list)
  /\ (exists req, requests (run (getSubjects_execute tt) env w).2
                  = (requests w ++ [req])%list)
  /\ (forall args, exists req,
        requests (run (getStudents_execute args) env w).2
        = (requests w ++ [req])%list)
  /\ (forall studentId, exists req,
        requests (run (getStudent_execute studentId) env w).2
        = (requests w ++ [req])%list)
  /\ (forall name schoolIds encoded,
        encodeURIComponent name = inr encoded ->
        exists req,
          requests (run (searchStudent_execute (name, schoolIds)) env w).2
          = (requests w ++ [req])%list).
Proof.
  repeat split; try intros [schoolIds classIds]; intros;
    try (rewrite searchStudent_run;
         match goal with H : encodeURIComponent _ = _ |- _ => rewrite H end);
    unfold getUserPersonalData_execute, getSchools_execute,
           getClasses_execute, getSubjects_execute, getStudents_execute,
           getStudent_execute;
    rewrite fetch_run; simpl; destruct (facade env _); simpl;
    eexists; reflexivity.
Qed.

Lemma truthy_nonempty (s : string) : s <> "" -> truthy (Some s) = true.
Proof. intros H. unfold truthy. now rewrite (eqb_neq_false _ _ H). Qed.

Lemma getStudents_url_both (schoolIds classIds : string) :
  schoolIds <> "" -> classIds <> "" ->
  getStudents_url (Some schoolIds) (Some classIds)
  = "active-students?schoolIds=" +:+ schoolIds +:+ "&classIds=" +:+ classIds.
Proof.
  intros Hs Hc. unfold getStudents_url.
  rewrite (truthy_nonempty _ Hs), (truthy_nonempty _ Hc).
  cbv zeta. cbn [default from_option]. unfold id.
  assert (Hq : includes ("active-students" +:+ "?schoolIds=" +:+ schoolIds)
                        "?" = true).
  { apply (includes_append "active-students"). reflexivity. }
  rewrite Hq. reflexivity.
Qed.

(** C10, as amended: when [schoolIds] is given and not empty, and the
    name has been encoded, [searchStudent] requests the path
    [/students/typeahead?searchText=<name>?schoolIds=<ids>], with a
    second question mark; [getStudents], given both of its filters
    non-empty, joins them with an ampersand. *)
Theorem searchStudent_second_question_mark (env : Env) (w : World)
    (name encoded schoolIds classIds : string) :
  encodeURIComponent name = inr encoded ->
  schoolIds <> "" ->
  classIds <> "" ->
  requests (run (searchStudent_execute (name, Some schoolIds)) env w).2
  = (requests w ++
     [{| url := "/students/typeahead?searchText=" +:+ encoded
                +:+ "?schoolIds=" +:+ schoolIds;
         headers := AUTH_HEADER |}])%list
  /\ requests (run (getStudents_execute (Some schoolIds, Some classIds))
                 env w).2
     = (requests w ++
        [{| url := "active-students?schoolIds=" +:+ schoolIds
                   +:+ "&classIds=" +:+ classIds;
            headers := AUTH_HEADER |}])%list.
Proof.
  intros Henc Hs Hc. split.
  - rewrite searchStudent_run, Henc, fetch_run.
    unfold searchStudent_url. rewrite (truthy_nonempty _ Hs).
    simpl. destruct (facade env _); reflexivity.
  - unfold getStudents_execute.
    rewrite fetch_run, (getStudents_url_both _ _ Hs Hc).
    simpl. destruct (facade env _); reflexivity.
Qed.

End DomainTools.

(** ** The exported tables *)

Section Tables.
Context `{RT : Runtime}.

(** C1: every tool of [tools] has an inline [execute] exactly when
    [executions] has no entry under its name, so none has both and none
    has neither; and every entry of [executions] names a registered tool
    without an inline [execute]. *)
Theorem tools_inline_xor_confirmation :
  Forall (fun entry : string * AnyTool =>
            has_execute entry.2 = true <-> property executions entry.1 = None)
         tools
  /\ Forall (fun name =>
               exists t, property tools name = Some t /\ has_execute t = false)
            (keys executions).
Proof.
  split.
  - unfold tools.
    repeat first
      [ apply List.Forall_nil
      | apply List.Forall_cons;
        [simpl; split; intros H; first [reflexivity | discriminate H] |] ].
  - unfold executions, keys. simpl.
    apply List.Forall_cons; [|apply List.Forall_nil].
    eexists. split; reflexivity.
Qed.

End Tables.

(** ** The confirmation gate *)

Section GateProperties.
Context `{RT : Runtime}.
Variable Args : Type.
Variable registry : list (string * option (Args -> M string)).
Variable table : list (string * (Args -> M string)).
Variable rejection : string.

Local Abbreviation dispatch := (dispatch Args registry).
Local Abbreviation resolve := (resolve Args table rejection).
Local Abbreviation step := (step Args registry table rejection).
Local Abbreviation steps := (steps Args registry table rejection).

(** A deferred call gets an id the gate has not used. *)
Lemma dispatch_keeps (name : string) (args : Args) (now : nat)
    (g : gmap nat (Slot Args)) (env : Env) (w : World) (k : nat) (s : Slot Args) :
  g !! k = Some s ->
  (dispatch name args now g env w).1.2 !! k = Some s.
Proof.
  intros Hk. unfold Gate.dispatch.
  destruct (mbind _ _) as [inline|].
  - destruct (inline args env w). exact Hk.
  - simpl. rewrite lookup_insert_ne; [exact Hk|].
    intros Heq. apply (is_fresh (dom g)). rewrite Heq.
    apply elem_of_dom. now exists s.
Qed.

(** Resolving never brings a consumed id back. *)
Lemma resolve_keeps_resolved (pendingId : nat) (d : Decision)
    (g g' : gmap nat (Slot Args)) (env : Env) (w w' : World)
    (r : Result) (k : nat) :
  g !! k = Some (Resolved Args) ->
  resolve pendingId d g env w = Some (r, g', w') ->
  g' !! k = Some (Resolved Args).
Proof.
  intros Hk. unfold Gate.resolve.
  destruct (g !! pendingId) as [[p|]|] eqn:Hid; [| |discriminate].
  - assert (Hins : <[pendingId := Resolved Args]> g !! k
                   = Some (Resolved Args)).
    { destruct (decide (pendingId = k)) as [->|Hne].
      - apply lookup_insert_eq.
      - now rewrite lookup_insert_ne. }
    destruct d.
    + destruct (property table (toolName Args p)) as [executor|].
      * destruct (executor _ env w). intros [= _ <- _]. exact Hins.
      * intros [= _ <- _]. exact Hins.
    + intros [= _ <- _]. exact Hins.
  - intros [= _ <- _]. exact Hk.
Qed.

Lemma step_keeps_resolved (env : Env) (o : Op Args)
    (s : gmap nat (Slot Args) * World) (k : nat) :
  s.1 !! k = Some (Resolved Args) ->
  (step env s o).1 !! k = Some (Resolved Args).
Proof.
  destruct s as [g w]. simpl. intros Hk. destruct o as [name args now|pid d].
  - pose proof (dispatch_keeps name args now g env w k _ Hk) as H.
    destruct (dispatch name args now g env w) as [[r g'] w']. exact H.
  - destruct (resolve pid d g env w) as [[[r g'] w']|] eqn:Hres; [|exact Hk].
    exact (resolve_keeps_resolved pid d g g' env w w' r k Hk Hres).
Qed.

Lemma steps_keep_resolved (env : Env) (ops : list (Op Args))
    (s : gmap nat (Slot Args) * World) (k : nat) :
  s.1 !! k = Some (Resolved Args) ->
  (steps env ops s).1 !! k = Some (Resolved Args).
Proof.
  revert s. induction ops as [|o ops IH]; intros s Hk; [exact Hk|].
  apply IH. now apply step_keeps_resolved.
Qed.

(** C8: the first resolution of a waiting confirmation answers by the
    decision and the executor's outcome, and from then on, whatever else
    the gate is asked in between, every resolution of the same id fails
    with [AlreadyResolvedError] and changes nothing. *)
Theorem resolve_at_most_once (env : Env) (g : gmap nat (Slot Args))
    (w : World) (pendingId : nat) (p : PendingConfirmation Args)
    (d : Decision) :
  g !! pendingId = Some (Waiting Args p) ->
  exists r g1 w1,
    resolve pendingId d g env w = Some (r, g1, w1)
    /\ r = match d with
           | Deny => Ok rejection
           | Approve =>
             match property table (toolName Args p) with
             | None => Failed MissingExecutorError
             | Some executor =>
               of_completion (executor (validatedArguments Args p) env w).1
             end
           end
    /\ forall (ops : list (Op Args)) (d' : Decision),
         let s := steps env ops (g1, w1) in
         resolve pendingId d' s.1 env s.2
         = Some (Failed AlreadyResolvedError, s.1, s.2).
Proof.
  intros Hwait.
  assert (Hafter : forall g1 w1,
             g1 !! pendingId = Some (Resolved Args) ->
             forall ops d',
               let s := steps env ops (g1, w1) in
               resolve pendingId d' s.1 env s.2
               = Some (Failed AlreadyResolvedError, s.1, s.2)).
  { intros g1 w1 Hres ops d' s.
    pose proof (steps_keep_resolved env ops (g1, w1) pendingId Hres) as Hk.
    fold s in Hk. unfold Gate.resolve. now rewrite Hk. }
  unfold Gate.resolve at 1. rewrite Hwait.
  destruct d.
  - destruct (property table (toolName Args p)) as [executor|].
    + destruct (executor (validatedArguments Args p) env w) as [c w1] eqn:Hx.
      do 3 eexists. split; [reflexivity|]. split; [reflexivity|].
      apply Hafter. apply lookup_insert_eq.
    + do 3 eexists. split; [reflexivity|]. split; [reflexivity|].
      apply Hafter. apply lookup_insert_eq.
  - do 3 eexists. split; [reflexivity|]. split; [reflexivity|].
    apply Hafter. apply lookup_insert_eq.
Qed.

End GateProperties.

(** ** The schedule tool, all branches *)

Section ScheduleBranches.
Context `{RT : Runtime}.

(** Every run of the schedule tool, by the order of its tests. *)
Lemma schedule_run (env : Env) (w : World) (when : When)
    (description : string) :
  run (scheduleTask_execute (when, description)) env w
  = match agentStore env with
    | None => (Thrown NoActiveAgentError, w)
    | Some agent =>
      if String.eqb (type when) "no-schedule" then
        (Returned "Not a valid schedule input", w)
      else if recognised (type when) then
        let call := {| trigger := classified when; action := "executeTask";
                       payload := description |} in
        match schedule agent call with
        | None =>
          (Returned ("Task scheduled for type " +:+ dq +:+ type when +:+ dq
                     +:+ " : " +:+ template (classified when)),
           {| console := console w;
              scheduled := scheduled w ++ [call];
              requests := requests w;
              unhandled := unhandled w ++ rejections (settles agent call) |})
        | Some e =>
          (Returned ("Error scheduling task: " +:+ Error.toString e),
           {| console := console w ++
                [{| level := ErrorLevel;
                    parts := [LString "error scheduling task"; LError e] |}];
              scheduled := scheduled w ++ [call];
              requests := requests w;
              unhandled := unhandled w |})
        end
      else (Thrown InvalidScheduleError, w)
    end.
Proof.
  destruct (agentStore env) as [agent|] eqn:Hagent.
  - destruct (String.eqb (type when) "no-schedule") eqn:Hno.
    + apply String.eqb_eq in Hno.
      exact (schedule_no_schedule env w agent when description Hagent Hno).
    + apply String.eqb_neq in Hno.
      destruct (recognised (type when)) eqn:Htag.
      * exact (schedule_recognised env w agent when description Hagent Htag).
      * exact (schedule_unrecognised env w agent when description
                 Hagent Hno Htag).
  - exact (schedule_without_agent env w (when, description) Hagent).
Qed.

(** X1: for a trigger of type ["delayed"] carrying the delay [n], with
    an agent context, the tool schedules once with the number [n], the
    action "executeTask" and the description; when the call returns,
    the result is [Task scheduled for type "delayed" : ] followed by
    [n] as a string, so it contains both "delayed" and the delay. *)
Theorem delayed_trigger_is_scheduled (env : Env) (w : World)
    (agent : Agent) (when : When) (n : Number) (description : string) :
  agentStore env = Some agent ->
  type when = "delayed" ->
  delayInSeconds when = Some n ->
  let call := {| trigger := Some (TNumber n); action := "executeTask";
                 payload := description |} in
  let out := run (scheduleTask_execute (when, description)) env w in
  let result := "Task scheduled for type " +:+ dq +:+ "delayed" +:+ dq
                +:+ " : " +:+ Number_toString n in
  scheduled out.2 = (scheduled w ++ [call])%list
  /\ (schedule agent call = None ->
      out.1 = Returned result
      /\ includes result "delayed" = true
      /\ includes result (Number_toString n) = true).
Proof.
  intros Hagent Htype Hdelay call out result. subst out.
  assert (Hkind : includes result "delayed" = true).
  { subst result. do 2 apply includes_append. reflexivity. }
  assert (Hvalue : includes result (Number_toString n) = true).
  { subst result. do 4 apply includes_append. apply includes_suffix. }
  rewrite schedule_run, Hagent. unfold classified.
  rewrite Htype, Hdelay. simpl. fold call.
  split.
  - destruct (schedule agent call); reflexivity.
  - intros Hok. rewrite Hok. repeat split; assumption.
Qed.

(** X2: for a trigger of type ["cron"] carrying the expression [c],
    with an agent context, the tool schedules once with the string [c]
    itself, the action "executeTask" and the description; when the call
    returns, the result is [Task scheduled for type "cron" : ] followed
    by [c] unchanged. *)
Theorem cron_trigger_is_scheduled (env : Env) (w : World)
    (agent : Agent) (when : When) (c description : string) :
  agentStore env = Some agent ->
  type when = "cron" ->
  cron when = Some c ->
  let call := {| trigger := Some (TString c); action := "executeTask";
                 payload := description |} in
  let out := run (scheduleTask_execute (when, description)) env w in
  scheduled out.2 = (scheduled w ++ [call])%list
  /\ (schedule agent call = None ->
      out.1 = Returned ("Task scheduled for type " +:+ dq +:+ "cron" +:+ dq
                        +:+ " : " +:+ c)).
Proof.
  intros Hagent Htype Hcron call out. subst out.
  rewrite schedule_run, Hagent. unfold classified.
  rewrite Htype, Hcron. simpl. fold call.
  split.
  - destruct (schedule agent call); reflexivity.
  - intros Hok. rewrite Hok. reflexivity.
Qed.

(** X3: the returned string tells the outcome.  A result that starts
    with "Task scheduled" is only returned after a scheduling call that
    came back without throwing; one that starts with "Error scheduling
    task" only after a call that threw, whose error it spells out; and
    "Not a valid schedule input" only when no call was made. *)
Theorem schedule_result_tells_outcome (env : Env) (w : World)
    (when : When) (description result : string) :
  let out := run (scheduleTask_execute (when, description)) env w in
  out.1 = Returned result ->
  (String.prefix "Task scheduled" result = true ->
   exists agent call,
     agentStore env = Some agent
     /\ scheduled out.2 = (scheduled w ++ [call])%list
     /\ schedule agent call = None)
  /\ (String.prefix "Error scheduling task" result = true ->
      exists agent call e,
        agentStore env = Some agent
        /\ scheduled out.2 = (scheduled w ++ [call])%list
        /\ schedule agent call = Some e
        /\ result = "Error scheduling task: " +:+ Error.toString e)
  /\ (result = "Not a valid schedule input" ->
      scheduled out.2 = scheduled w).
Proof.
  intros out. subst out. rewrite schedule_run.
  destruct (agentStore env) as [agent|]; [|discriminate].
  destruct (String.eqb (type when) "no-schedule").
  { simpl. intros [= <-]. repeat split; discriminate. }
  destruct (recognised (type when)); [|discriminate].
  cbv zeta.
  destruct (schedule agent _) as [e|] eqn:Hcall; simpl; intros [= <-].
  - split; [discriminate|]. split; [|discriminate].
    intros _. exists agent. eexists. exists e.
    split; [reflexivity|]. split; [reflexivity|]. split; [exact Hcall|].
    reflexivity.
  - split; [|split; discriminate].
    intros _. exists agent. eexists.
    split; [reflexivity|]. split; [reflexivity | exact Hcall].
Qed.

(** X4: whatever its input, the schedule tool makes at most one
    scheduling call, always for the action "executeTask" with the
    description as payload, and never a GET request. *)
Theorem schedule_calls_shape (env : Env) (w : World)
    (when : When) (description : string) :
  let out := run (scheduleTask_execute (when, description)) env w in
  (exists calls,
     scheduled out.2 = (scheduled w ++ calls)%list
     /\ (length calls <= 1)%nat
     /\ Forall (fun call => action call = "executeTask"
                            /\ payload call = description) calls)
  /\ requests out.2 = requests w.
Proof.
  intros out. subst out. rewrite schedule_run.
  assert (Hnone : forall c : Completion string,
             (exists calls,
                scheduled (c, w).2 = (scheduled w ++ calls)%list
                /\ (length calls <= 1)%nat
                /\ Forall (fun call => action call = "executeTask"
                                       /\ payload call = description) calls)
             /\ requests (c, w).2 = requests w).
  { intros c. split; [|reflexivity]. exists []. simpl.
    rewrite app_nil_r. repeat split; [lia | constructor]. }
  destruct (agentStore env) as [agent|]; [|apply Hnone].
  destruct (String.eqb (type when) "no-schedule"); [apply Hnone|].
  destruct (recognised (type when)); [|apply Hnone].
  cbv zeta. destruct (schedule agent _); simpl;
    (split; [|reflexivity]); eexists; (split; [reflexivity|]);
    (split; [simpl; lia|]); repeat constructor.
Qed.

(** X5: only two errors leave the schedule tool, "No agent found" when
    there is no agent context and "not a valid schedule input" for a tag
    outside the four known ones; an error thrown by the agent's
    scheduling call never does.  A run that throws leaves no trace:
    nothing is scheduled, logged or requested. *)
Theorem schedule_throws_cleanly (env : Env) (w : World)
    (when : When) (description : string) (e : Error.t) :
  let out := run (scheduleTask_execute (when, description)) env w in
  out.1 = Thrown e ->
  out.2 = w
  /\ ((e = NoActiveAgentError /\ agentStore env = None)
      \/ (e = InvalidScheduleError /\ is_Some (agentStore env)
          /\ type when <> "no-schedule"
          /\ recognised (type when) = false)).
Proof.
  intros out. subst out. rewrite schedule_run.
  destruct (agentStore env) as [agent|].
  - destruct (String.eqb (type when) "no-schedule") eqn:Hno; [discriminate|].
    apply String.eqb_neq in Hno.
    destruct (recognised (type when)) eqn:Htag.
    + cbv zeta. destruct (schedule agent _); discriminate.
    + simpl. intros [= <-]. split; [reflexivity|]. right.
      split; [reflexivity|]. split; [now exists agent|]. now split.
  - simpl. intros [= <-]. split; [reflexivity|]. now left.
Qed.

(** X6: the tool keeps no memory of what it scheduled: called twice
    with the same accepted trigger it makes the same scheduling call
    twice. *)
Theorem schedule_twice_schedules_twice (env : Env) (w : World)
    (agent : Agent) (when : When) (description : string) :
  agentStore env = Some agent ->
  recognised (type when) = true ->
  let call := {| trigger := classified when; action := "executeTask";
                 payload := description |} in
  schedule agent call = None ->
  let once := run (scheduleTask_execute (when, description)) env w in
  let twice := run (scheduleTask_execute (when, description)) env once.2 in
  once.1 = twice.1
  /\ scheduled twice.2 = (scheduled w ++ [call; call])%list.
Proof.
  intros Hagent Htag call Hok once twice. subst once twice.
  assert (Hno : String.eqb (type when) "no-schedule" = false).
  { destruct (String.eqb (type when) "no-schedule") eqn:Hno; [|reflexivity].
    apply String.eqb_eq in Hno. rewrite Hno in Htag. discriminate Htag. }
  rewrite !schedule_run, Hagent, Hno, Htag. cbv zeta. fold call.
  rewrite Hok. simpl. split; [reflexivity|].
  now rewrite <- app_assoc.
Qed.

End ScheduleBranches.

(** ** The domain-record tools, request by request *)

Section DomainRequests.
Context `{RT : Runtime}.

Lemma append_empty (s : string) : s +:+ "" = s.
Proof.
  induction s as [|c s IH]; [reflexivity|].
  change (String c (s +:+ "") = String c s). now f_equal.
Qed.

(** The path of [getStudents] as a query string over the filters that
    are given. *)
Lemma getStudents_url_query (schoolIds classIds : option string) :
  getStudents_url schoolIds classIds
  = "active-students"
    +:+ query_string (given "schoolIds" schoolIds ++ given "classIds" classIds).
Proof.
  unfold getStudents_url, given.
  destruct (truthy schoolIds) eqn:Hs, (truthy classIds) eqn:Hc;
    cbv zeta; simpl; rewrite ?append_empty; reflexivity.
Qed.

(** X7: [getStudents] requests the path [active-students] followed by a
    query string in the usual form over the filters that are given and
    not empty, [schoolIds] before [classIds]: the first after a question
    mark, the second after an ampersand, and nothing at all when both
    are missing or empty. *)
Theorem getStudents_requests_query (env : Env) (w : World)
    (schoolIds classIds : option string) :
  requests (run (getStudents_execute (schoolIds, classIds)) env w).2
  = (requests w ++
     [{| url := "active-students"
                +:+ query_string (given "schoolIds" schoolIds
                                  ++ given "classIds" classIds);
         headers := AUTH_HEADER |}])%list.
Proof.
  unfold getStudents_execute. rewrite fetch_run, getStudents_url_query.
  cbv zeta. destruct (facade env _); reflexivity.
Qed.

(** X8: when [encodeURIComponent] throws on the name, [searchStudent]
    lets that error out: it throws the same error, having made no
    request and written nothing to the console. *)
Theorem searchStudent_encoding_error_escapes (env : Env) (w : World)
    (name : string) (schoolIds : option string) (e : Error.t) :
  encodeURIComponent name = inl e ->
  run (searchStudent_execute (name, schoolIds)) env w = (Thrown e, w).
Proof. intros Henc. now rewrite searchStudent_run, Henc. Qed.

(** The shared block adds one request with the headers it was given. *)
Lemma fetch_with_token (u : string) (env : Env) (w : World) :
  let out :=
    run (try_catch
           (data ← bambaiApiClient_get u AUTH_HEADER;
            console_log [LString "res"; LJson data];;
            mret (JSON_stringify data))
           (fun error =>
              console_log [LString "err"; LError error];;
              mret "error")) env w in
  exists rs,
    requests out.2 = (requests w ++ rs)%list
    /\ (length rs <= 1)%nat
    /\ Forall (fun r => headers r = [("x-access-token", "")]) rs
    /\ (rs = [] -> exists e, out.1 = Thrown e).
Proof.
  intros out. subst out. rewrite fetch_run. cbv zeta.
  exists [{| url := u; headers := AUTH_HEADER |}].
  destruct (facade env _); simpl;
    (split; [reflexivity|]); (split; [lia|]);
    (split; [repeat constructor | discriminate]).
Qed.

(** X9: every domain-record tool adds at most one GET request per run,
    that request carries exactly the header [x-access-token] with the
    empty value, and a run that adds none has thrown. *)
Theorem domain_tools_send_static_token :
  Forall (fun tool =>
            match tool with
            | any t => exists f, execute t = Some f /\ fetches_with_token f
            end) domain_tools.
Proof.
  unfold domain_tools.
  repeat first
    [ apply List.Forall_nil
    | apply List.Forall_cons; [eexists; split; [reflexivity|] |] ].
  - intros args env w. apply (fetch_with_token _ env w).
  - intros args env w. apply (fetch_with_token _ env w).
  - intros args env w. apply (fetch_with_token _ env w).
  - intros args env w. apply (fetch_with_token _ env w).
  - intros [schoolIds classIds] env w. apply (fetch_with_token _ env w).
  - intros [name schoolIds] env w. rewrite searchStudent_run.
    destruct (encodeURIComponent name) as [e|encoded].
    + exists []. simpl. rewrite app_nil_r.
      split; [reflexivity|]. split; [lia|]. split; [constructor|].
      intros _. now exists e.
    + apply (fetch_with_token _ env w).
  - intros args env w. apply (fetch_with_token _ env w).
Qed.

Lemma fetch_never_schedules (u : string) (hs : list (string * string))
    (env : Env) (w : World) :
  scheduled
    (run (try_catch
            (data ← bambaiApiClient_get u hs;
             console_log [LString "res"; LJson data];;
             mret (JSON_stringify data))
            (fun error =>
               console_log [LString "err"; LError error];;
               mret "error")) env w).2
  = scheduled w.
Proof. rewrite fetch_run. cbv zeta. destruct (facade env _); reflexivity. Qed.

Lemma fetch_returns (u : string) (hs : list (string * string))
    (env : Env) (w : World) :
  exists result,
    (run (try_catch
            (data ← bambaiApiClient_get u hs;
             console_log [LString "res"; LJson data];;
             mret (JSON_stringify data))
            (fun error =>
               console_log [LString "err"; LError error];;
               mret "error")) env w).1
    = Returned result.
Proof.
  rewrite fetch_run. cbv zeta. destruct (facade env _); eexists; reflexivity.
Qed.

(** X10: of all the tools of [tools], only [scheduleTask] ever calls
    [agent.schedule], and [scheduleTask] never makes a GET request, nor
    does [getLocalTime]; the confirmation executors of [executions] do
    neither. *)
Theorem tools_keep_to_their_collaborator :
  Forall (fun entry : string * AnyTool =>
            match entry.2 with
            | any t =>
              forall f, execute t = Some f ->
                if String.eqb entry.1 "scheduleTask" then never_fetches f
                else never_schedules f
            end) tools
  /\ never_fetches getLocalTime_execute
  /\ Forall (fun entry : string * (string -> M string) =>
               never_schedules entry.2 /\ never_fetches entry.2) executions.
Proof.
  split; [|split].
  - unfold tools.
    repeat first
      [ apply List.Forall_nil
      | apply List.Forall_cons;
        [simpl; intros f Hf; first [discriminate Hf | injection Hf as <-] |] ].
    + intros args env w. apply fetch_never_schedules.
    + intros args env w. reflexivity.
    + intros [when description] env w. rewrite schedule_run.
      destruct (agentStore env) as [agent|]; [|reflexivity].
      destruct (String.eqb (type when) "no-schedule"); [reflexivity|].
      destruct (recognised (type when)); [|reflexivity].
      cbv zeta. destruct (schedule agent _); reflexivity.
    + intros args env w. apply fetch_never_schedules.
    + intros args env w. apply fetch_never_schedules.
    + intros args env w. apply fetch_never_schedules.
    + intros [schoolIds classIds] env w. apply fetch_never_schedules.
    + intros [name schoolIds] env w. rewrite searchStudent_run.
      destruct (encodeURIComponent name); [reflexivity|].
      apply fetch_never_schedules.
    + intros args env w. apply fetch_never_schedules.
  - intros args env w. reflexivity.
  - unfold executions.
    apply List.Forall_cons; [|apply List.Forall_nil].
    split; intros args env w; reflexivity.
Qed.

(** X11: apart from [scheduleTask] and [searchStudent], every tool of
    [tools] with an inline executor returns a string in every run and
    never throws, and so do the executors of [executions];
    [searchStudent] returns exactly when its name can be encoded. *)
Theorem tools_that_never_throw :
  Forall (fun entry : string * AnyTool =>
            match entry.2 with
            | any t =>
              forall f, execute t = Some f ->
                entry.1 = "scheduleTask" \/ entry.1 = "searchStudent"
                \/ always_returns f
            end) tools
  /\ Forall (fun entry : string * (string -> M string) =>
               always_returns entry.2) executions
  /\ forall name schoolIds env w,
       (exists result,
          (run (searchStudent_execute (name, schoolIds)) env w).1
          = Returned result)
       <-> exists encoded, encodeURIComponent name = inr encoded.
Proof.
  split; [|split].
  - unfold tools.
    repeat first
      [ apply List.Forall_nil
      | apply List.Forall_cons;
        [simpl; intros f Hf; first [discriminate Hf | injection Hf as <-] |] ].
    + right; right. intros args env w. apply fetch_returns.
    + right; right. intros args env w. eexists. reflexivity.
    + now left.
    + right; right. intros args env w. apply fetch_returns.
    + right; right. intros args env w. apply fetch_returns.
    + right; right. intros args env w. apply fetch_returns.
    + right; right. intros [schoolIds classIds] env w. apply fetch_returns.
    + right; now left.
    + right; right. intros args env w. apply fetch_returns.
  - unfold executions.
    apply List.Forall_cons; [|apply List.Forall_nil].
    intros args env w. eexists. reflexivity.
  - intros name schoolIds env w. rewrite searchStudent_run.
    destruct (encodeURIComponent name) as [e|encoded].
    + split; [intros [result H]; discriminate H
             | intros [encoded H]; discriminate H].
    + split; [intros _; now exists encoded | intros _; apply fetch_returns].
Qed.

Lemma fetch_logs (u : string) (hs : list (string * string))
    (env : Env) (w : World) (req : Request) :
  let out :=
    run (try_catch
           (data ← bambaiApiClient_get u hs;
            console_log [LString "res"; LJson data];;
            mret (JSON_stringify data))
           (fun error =>
              console_log [LString "err"; LError error];;
              mret "error")) env w in
  requests out.2 = (requests w ++ [req])%list ->
  console out.2
  = (console w ++
     [{| level := Log;
         parts := match facade env req with
                  | inl e => [LString "err"; LError e]
                  | inr data => [LString "res"; LJson data]
                  end |}])%list.
Proof.
  intros out. subst out. rewrite fetch_run. cbv zeta.
  destruct (facade env {| url := u; headers := hs |}) as [e|data] eqn:Hf;
    simpl; intros Hreq; apply app_inv_head in Hreq;
    injection Hreq as <-; rewrite Hf; reflexivity.
Qed.

(** X12: the detail a domain-record tool drops from its result is kept
    on the console: in every run that issues its GET request it writes
    exactly one console line, with [console.log], holding "err" and the
    error the request failed with, or "res" and the body received. *)
Theorem domain_tools_log_outcome :
  Forall (fun tool =>
            match tool with
            | any t => exists f, execute t = Some f /\ logs_outcome f
            end) domain_tools.
Proof.
  unfold domain_tools.
  repeat first
    [ apply List.Forall_nil
    | apply List.Forall_cons; [eexists; split; [reflexivity|] |] ].
  - intros args env w req. apply (fetch_logs _ _ env w req).
  - intros args env w req. apply (fetch_logs _ _ env w req).
  - intros args env w req. apply (fetch_logs _ _ env w req).
  - intros args env w req. apply (fetch_logs _ _ env w req).
  - intros [schoolIds classIds] env w req. apply (fetch_logs _ _ env w req).
  - intros [name schoolIds] env w req. rewrite searchStudent_run.
    destruct (encodeURIComponent name) as [e|encoded].
    + simpl. intros Hreq. exfalso.
      apply (f_equal (@length Request)) in Hreq.
      rewrite length_app in Hreq. simpl in Hreq. lia.
    + apply (fetch_logs _ _ env w req).
  - intros args env w req. apply (fetch_logs _ _ env w req).
Qed.

End DomainRequests.

(** * The properties at concrete inputs *)

(** C2 at a probe with an agent context. *)
Lemma no_schedule_returns_notice_witness :
  run (scheduleTask_execute (when_of "no-schedule" None, "probe"))
      (env_of (Some obliging_agent) facade_down) start
  = (Returned "Not a valid schedule input", start).
Proof.
  apply (proj2 (@no_schedule_returns_notice example_runtime
                  (env_of (Some obliging_agent) facade_down) start
                  (when_of "no-schedule" None) "probe" eq_refl)).
  eexists. reflexivity.
Defined.

(** The same probe without an agent context does not return the
    informational string: it throws. *)
Lemma no_schedule_without_agent_throws :
  type (when_of "no-schedule" None) = "no-schedule"
  /\ (run (scheduleTask_execute (when_of "no-schedule" None, "probe"))
          (env_of None facade_down) start).1
     = Thrown (new_Error "No agent found")
  /\ (run (scheduleTask_execute (when_of "no-schedule" None, "probe"))
          (env_of None facade_down) start).1
     <> Returned "Not a valid schedule input".
Proof. split; [reflexivity|]. split; [reflexivity | discriminate]. Qed.

(** C3 at the date of the spec's example. *)
Lemma scheduled_date_is_passed_and_echoed_witness :
  scheduled
    (run (scheduleTask_execute
            (when_of "scheduled" (Some "2025-01-01T00:00:00Z"),
             "water the plants"))
         (env_of (Some obliging_agent) facade_up) start).2
  = [ @Build_ScheduleCall example_runtime
        (Some (@TDate example_runtime "2025-01-01T00:00:00Z"))
        "executeTask" "water the plants" ].
Proof.
  apply (proj1 (@scheduled_date_is_passed_and_echoed example_runtime
                  (env_of (Some obliging_agent) facade_up) start
                  obliging_agent
                  (when_of "scheduled" (Some "2025-01-01T00:00:00Z"))
                  "2025-01-01T00:00:00Z" "water the plants"
                  eq_refl eq_refl eq_refl)).
Defined.

(** The string returned for that date embeds the date but not the action
    name. *)
Lemma scheduled_result_omits_action_name :
  (run (scheduleTask_execute
          (when_of "scheduled" (Some "2025-01-01T00:00:00Z"),
           "water the plants"))
       (env_of (Some obliging_agent) facade_up) start).1
  = Returned ("Task scheduled for type " +:+ dq +:+ "scheduled" +:+ dq
              +:+ " : 2025-01-01T00:00:00Z")
  /\ includes ("Task scheduled for type " +:+ dq +:+ "scheduled" +:+ dq
               +:+ " : 2025-01-01T00:00:00Z") "2025-01-01T00:00:00Z" = true
  /\ includes ("Task scheduled for type " +:+ dq +:+ "scheduled" +:+ dq
               +:+ " : 2025-01-01T00:00:00Z") "executeTask" = false.
Proof. repeat split; vm_compute; reflexivity. Qed.

(** X13 at an agent whose scheduling call throws. *)
Lemma scheduling_failure_is_reported_witness :
  (run (scheduleTask_execute
          (when_of "scheduled" (Some "2025-01-01T00:00:00Z"),
           "water the plants"))
       (env_of (Some failing_agent) facade_up) start).1
  = Returned "Error scheduling task: Error: store is full".
Proof.
  destruct (@scheduling_failure_is_reported example_runtime
              (env_of (Some failing_agent) facade_up) start failing_agent
              (when_of "scheduled" (Some "2025-01-01T00:00:00Z"))
              "water the plants" eq_refl eq_refl)
    as [_ [call [_ [_ [_ Hthrows]]]]].
  exact (proj1 (Hthrows (new_Error "store is full") eq_refl)).
Defined.

(** C4 at an agent whose scheduling call hands back a promise that
    rejects: the tool answers as if the task had been scheduled. *)
Lemma scheduling_rejection_goes_unreported_witness :
  (run (scheduleTask_execute
          (when_of "scheduled" (Some "2025-01-01T00:00:00Z"),
           "water the plants"))
       (env_of (Some rejecting_agent) facade_up) start).1
  = Returned ("Task scheduled for type " +:+ dq +:+ "scheduled" +:+ dq
              +:+ " : 2025-01-01T00:00:00Z")
  /\ unhandled
       (run (scheduleTask_execute
               (when_of "scheduled" (Some "2025-01-01T00:00:00Z"),
                "water the plants"))
            (env_of (Some rejecting_agent) facade_up) start).2
     = [new_Error "store is full"].
Proof.
  destruct (@scheduling_rejection_goes_unreported example_runtime
              (env_of (Some rejecting_agent) facade_up) start
              rejecting_agent
              (when_of "scheduled" (Some "2025-01-01T00:00:00Z"))
              "water the plants" (new_Error "store is full")
              eq_refl eq_refl eq_refl eq_refl)
    as (Hresult & _ & _ & Hunhandled).
  split; [exact Hresult | exact Hunhandled].
Defined.

(** C5 at a delayed trigger. *)
Lemma no_agent_raises_witness :
  run (scheduleTask_execute (when_of "delayed" None, "water the plants"))
      (env_of None facade_up) start
  = (Thrown NoActiveAgentError, start).
Proof.
  apply (@no_agent_raises example_runtime (env_of None facade_up) start
           (when_of "delayed" None, "water the plants") eq_refl).
Defined.

(** C6 at the tag ["weekly"], with an agent context. *)
Lemma unknown_tag_raises_witness :
  run (scheduleTask_execute (when_of "weekly" None, "water the plants"))
      (env_of (Some obliging_agent) facade_up) start
  = (Thrown InvalidScheduleError, start).
Proof.
  apply (@unknown_tag_raises example_runtime
           (env_of (Some obliging_agent) facade_up) start
           (when_of "weekly" None) "water the plants");
    simpl; discriminate.
Defined.

(** The tag ["weekly"] without an agent context fails with the other
    error. *)
Lemma unknown_tag_without_agent :
  recognised (type (when_of "weekly" None)) = false
  /\ type (when_of "weekly" None) <> "no-schedule"
  /\ (run (scheduleTask_execute (when_of "weekly" None, "water the plants"))
          (env_of None facade_up) start).1
     = Thrown NoActiveAgentError
  /\ (run (scheduleTask_execute (when_of "weekly" None, "water the plants"))
          (env_of None facade_up) start).1
     <> Thrown InvalidScheduleError.
Proof.
  split; [reflexivity|]. split; [discriminate|].
  split; [reflexivity | discriminate].
Qed.

(** C7 at [searchStudent] with the facade down. *)
Lemma domain_tools_degrade_to_error_witness :
  (run (searchStudent_execute ("Ada Lovelace", Some "1,2"))
       (env_of None facade_down) start).1
  = Returned "error".
Proof.
  destruct (proj1 (proj2 (proj2 (proj2 (proj2 (proj2 (proj2
              (@domain_tools_degrade_to_error example_runtime))))))))
    as [f [Hf Hanswers]].
  injection Hf as <-.
  destruct (Hanswers ("Ada Lovelace", Some "1,2")
              (ex_intro _ "Ada%20Lovelace" eq_refl)
              (env_of None facade_down) start)
    as [req [_ Hresult]].
  exact Hresult.
Defined.

(** C8 at the deferred weather call, approved twice. *)
Lemma resolve_at_most_once_witness :
  exists r g1 w1,
    resolve string executions "denied by the user" 0 Approve one_pending
            (env_of None facade_down) start = Some (r, g1, w1)
    /\ r = Ok "The weather in Freetown is sunny"
    /\ resolve string executions "denied by the user" 0 Approve g1
               (env_of None facade_down) w1
       = Some (Failed AlreadyResolvedError, g1, w1).
Proof.
  destruct (@resolve_at_most_once example_runtime string string_registry
              executions "denied by the user" (env_of None facade_down)
              one_pending start 0
              {| toolName := "getWeatherInformation";
                 validatedArguments := "Freetown"; createdAt := 0 |}
              Approve eq_refl)
    as (r & g1 & w1 & Hfirst & Hr & Hlater).
  exists r, g1, w1. split; [exact Hfirst|]. split; [exact Hr|].
  exact (Hlater [] Approve).
Defined.

(** C9 at a probe without an agent context. *)
Lemma agent_check_precedes_classification_witness :
  (run (scheduleTask_execute (when_of "no-schedule" None, "probe"))
       (env_of None facade_down) start).1
  = Thrown NoActiveAgentError.
Proof.
  apply (proj1 (@agent_check_precedes_classification example_runtime
                  (env_of None facade_down) start
                  (when_of "no-schedule" None) "probe")).
  reflexivity.
Defined.

(** C10 at a name with a space and two school ids. *)
Lemma searchStudent_second_question_mark_witness :
  requests (run (searchStudent_execute ("Ada Lovelace", Some "1,2"))
                (env_of None facade_up) start).2
  = [ {| url := "/students/typeahead?searchText=Ada%20Lovelace?schoolIds=1,2";
         headers := [("x-access-token", "")] |} ].
Proof.
  apply (proj1 (@searchStudent_second_question_mark example_runtime
                  (env_of None facade_up) start
                  "Ada Lovelace" "Ada%20Lovelace" "1,2" "7,8" eq_refl
                  ltac:(discriminate) ltac:(discriminate))).
Defined.

(** With [schoolIds] given as the empty string nothing is appended. *)
Lemma searchStudent_empty_schoolIds :
  requests (run (searchStudent_execute ("Ada Lovelace", Some ""))
                (env_of None facade_up) start).2
  = [ {| url := "/students/typeahead?searchText=Ada%20Lovelace";
         headers := [("x-access-token", "")] |} ]
  /\ includes "/students/typeahead?searchText=Ada%20Lovelace" "?schoolIds="
     = false.
Proof. split; reflexivity. Qed.

(** X1 at a delay of thirty seconds. *)
Lemma delayed_trigger_is_scheduled_witness :
  (run (scheduleTask_execute (delayed_when "30", "water the plants"))
       (env_of (Some obliging_agent) facade_up) start).1
  = Returned ("Task scheduled for type " +:+ dq +:+ "delayed" +:+ dq
              +:+ " : 30").
Proof.
  exact (proj1 (proj2 (@delayed_trigger_is_scheduled example_runtime
                         (env_of (Some obliging_agent) facade_up) start
                         obliging_agent (delayed_when "30") "30"
                         "water the plants" eq_refl eq_refl eq_refl)
                  eq_refl)).
Defined.

(** X2 at the hourly expression. *)
Lemma cron_trigger_is_scheduled_witness :
  scheduled
    (run (scheduleTask_execute (cron_when "0 * * * *", "water the plants"))
         (env_of (Some obliging_agent) facade_up) start).2
  = [ @Build_ScheduleCall example_runtime
        (Some (@TString example_runtime "0 * * * *"))
        "executeTask" "water the plants" ].
Proof.
  exact (proj1 (@cron_trigger_is_scheduled example_runtime
                  (env_of (Some obliging_agent) facade_up) start
                  obliging_agent (cron_when "0 * * * *") "0 * * * *"
                  "water the plants" eq_refl eq_refl eq_refl)).
Defined.

(** X3 at a result that reports a failure. *)
Lemma schedule_result_tells_outcome_witness :
  exists agent call e,
    agentStore (env_of (Some failing_agent) facade_up) = Some agent
    /\ scheduled
         (run (scheduleTask_execute (cron_when "0 * * * *", "water the plants"))
              (env_of (Some failing_agent) facade_up) start).2
       = [call]
    /\ schedule agent call = Some e
    /\ "Error scheduling task: Error: store is full"
       = "Error scheduling task: " +:+ Error.toString e.
Proof.
  exact (proj1 (proj2 (@schedule_result_tells_outcome example_runtime
                         (env_of (Some failing_agent) facade_up) start
                         (cron_when "0 * * * *") "water the plants"
                         "Error scheduling task: Error: store is full"
                         eq_refl))
           eq_refl).
Defined.

(** X5 at the tag ["weekly"]. *)
Lemma schedule_throws_cleanly_witness :
  (run (scheduleTask_execute (when_of "weekly" None, "water the plants"))
       (env_of (Some failing_agent) facade_up) start).2
  = start.
Proof.
  exact (proj1 (@schedule_throws_cleanly example_runtime
                  (env_of (Some failing_agent) facade_up) start
                  (when_of "weekly" None) "water the plants"
                  InvalidScheduleError eq_refl)).
Defined.

(** X6 at the hourly expression, asked for twice. *)
Lemma schedule_twice_schedules_twice_witness :
  scheduled
    (run (scheduleTask_execute (cron_when "0 * * * *", "water the plants"))
         (env_of (Some obliging_agent) facade_up)
         (run (scheduleTask_execute
                 (cron_when "0 * * * *", "water the plants"))
              (env_of (Some obliging_agent) facade_up) start).2).2
  = [ @Build_ScheduleCall example_runtime
        (Some (@TString example_runtime "0 * * * *"))
        "executeTask" "water the plants";
      @Build_ScheduleCall example_runtime
        (Some (@TString example_runtime "0 * * * *"))
        "executeTask" "water the plants" ].
Proof.
  exact (proj2 (@schedule_twice_schedules_twice example_runtime
                  (env_of (Some obliging_agent) facade_up) start
                  obliging_agent (cron_when "0 * * * *")
                  "water the plants" eq_refl eq_refl eq_refl)).
Defined.

(** X8 at a name that ends in a lone surrogate. *)
Lemma searchStudent_encoding_error_escapes_witness :
  run (@searchStudent_execute strict_runtime (malformed_name, Some "1,2"))
      (@Build_Env strict_runtime None facade_up) (@start strict_runtime)
  = (Thrown (Error.make "URIError" "URI malformed"), @start strict_runtime).
Proof.
  exact (@searchStudent_encoding_error_escapes strict_runtime
           (@Build_Env strict_runtime None facade_up) (@start strict_runtime)
           malformed_name (Some "1,2")
           (Error.make "URIError" "URI malformed") eq_refl).
Defined.

(** X12 at [getSubjects] with the facade down. *)
Lemma domain_tools_log_outcome_witness :
  console (run (getSubjects_execute tt) (env_of None facade_down) start).2
  = [ @Build_ConsoleLine example_runtime Log
        [ @LString example_runtime "err";
          @LError example_runtime (Error.make "AxiosError" "Network Error") ] ].
Proof.
  pose proof (@domain_tools_log_outcome example_runtime) as H.
  unfold domain_tools in H.
  do 3 apply List.Forall_inv_tail in H. apply List.Forall_inv in H.
  destruct H as [f [Hf Hlogs]]. injection Hf as <-.
  exact (Hlogs tt (env_of None facade_down) start
           {| url := "subjects"; headers := AUTH_HEADER |} eq_refl).
Defined.
